(** * flow: stamped dispatches, stamp traits and capture ranges

    A shallow embedding of [flow/include/dispatch.h] and
    [flow/include/dispatch/dispatch_ostream.h].

    The two headers are templates, so part of what they do happens while the
    templates are instantiated: [static_assert], [std::make_signed], the choice
    between the primary [StampTraits] and its [time_point] specialisation, the
    lookup of a member named in a function template, the default arguments a
    call uses.  That part is embedded as functions into [compiled], where
    [inl e] is an instantiation the compiler rejects.  What the instantiated
    code does at run time is embedded as plain functions over records; a
    stream is the text written to it. *)

From Stdlib Require Import ZArith String Ascii List Bool Lia DecimalString.
From Stdlib Require Import DecimalPos DecimalZ.
Import ListNotations.

Local Open Scope string_scope.
Local Open Scope Z_scope.

(** ** Rejected instantiations *)

Inductive compile_error : Type :=
| static_assert_failed (message : string)
| make_signed_ill_formed
| no_member_named (name : string)
| member_function_not_called (name : string)
| member_is_private (name : string)
| member_is_const (name : string).

Definition compiled (A : Type) : Type := (compile_error + A)%type.

Definition ret {A : Type} (a : A) : compiled A := inr a.

Definition bind {A B : Type} (c : compiled A) (k : A -> compiled B) : compiled B :=
  match c with
  | inl e => inl e
  | inr a => k a
  end.

Declare Scope compiled_scope.
Delimit Scope compiled_scope with compiled.
Notation "x <- c ;; k" := (bind c (fun x => k))
  (at level 61, c at next level, right associativity) : compiled_scope.
Notation "c ;; k" := (bind c (fun _ => k))
  (at level 61, right associativity) : compiled_scope.
Local Open Scope compiled_scope.

Definition static_assert (condition : bool) (message : string) : compiled unit :=
  if condition then ret tt else inl (static_assert_failed message).

Definition resolvable {A : Type} (c : compiled A) : bool :=
  match c with
  | inl _ => false
  | inr _ => true
  end.

(** ** The parts of the C++ standard library the headers rely on

    [<type_traits>], [<limits>] and [<chrono>] are not part of the repository;
    they are written down here from the C++ standard, over an
    implementation's data model (the widths and signedness the standard leaves
    to the implementation). *)

Module std.

Inductive integral : Type :=
| Bool | Char | SignedChar | UnsignedChar | WChar | Char16 | Char32
| Short | UnsignedShort | Int | UnsignedInt
| Long | UnsignedLong | LongLong | UnsignedLongLong.

Inductive floating : Type := Float | Double | LongDouble.

Inductive arithmetic : Type :=
| Integral (i : integral)
| Floating (f : floating).

Inductive fundamental : Type :=
| Void
| NullPtr
| Arithmetic (a : arithmetic).

(** [std::ratio<num, den>] *)
Record ratio : Type := { num : positive; den : positive }.

(** [std::chrono::duration<Rep, Period>] *)
Record duration : Type := { rep : arithmetic; period : ratio }.

(** The types a stamp may have.  A [time_point] takes a clock (a class,
    known by its name) and a [duration]. *)
Inductive cxx_type : Type :=
| Fundamental (f : fundamental)
| chrono_duration (d : duration)
| chrono_time_point (clock : string) (d : duration)
| class_type (name : string).

(** Values of the scalar types: an integer, a binary floating-point number
    [m * 2 ^ e], or the value-initialised [T()] of a type for which nothing
    more is known. *)
Inductive scalar : Type :=
| SInt (z : Z)
| SFloat (m e : Z)
| SValueInit.

Definition binary (x : scalar) : option (Z * Z) :=
  match x with
  | SInt z => Some (z, 0)
  | SFloat m e => Some (m, e)
  | SValueInit => None
  end.

(** [x < y] on scalars, by bringing both to the smaller exponent. *)
Definition scalar_ltb (x y : scalar) : bool :=
  match binary x, binary y with
  | Some (m1, e1), Some (m2, e2) =>
      let e := Z.min e1 e2 in
      m1 * 2 ^ (e1 - e) <? m2 * 2 ^ (e2 - e)
  | _, _ => false
  end.

(** [std::numeric_limits<T>::digits], [min_exponent], [max_exponent] of a
    floating-point type (radix 2). *)
Record fp_format : Type :=
  { digits : positive; min_exponent : Z; max_exponent : Z }.

Record data_model : Type :=
  { width : integral -> positive;
    plain_char_signed : bool;
    wchar_signed : bool;
    format : floating -> fp_format }.

(** The signed integer types, by increasing rank. *)
Definition signed_integer_types : list integral :=
  [SignedChar; Short; Int; Long; LongLong].

Section DataModel.
Variable dm : data_model.

Definition is_signed (i : integral) : bool :=
  match i with
  | Bool => false
  | Char => plain_char_signed dm
  | WChar => wchar_signed dm
  | SignedChar | Short | Int | Long | LongLong => true
  | UnsignedChar | Char16 | Char32
  | UnsignedShort | UnsignedInt | UnsignedLong | UnsignedLongLong => false
  end.

(** [std::is_fundamental<T>]: arithmetic types, [void], [std::nullptr_t]. *)
Definition is_fundamental (T : cxx_type) : bool :=
  match T with
  | Fundamental _ => true
  | _ => false
  end.

(** [std::make_signed<T>::type].  A signed integer type is kept, an
    unsigned integer type gives the corresponding signed one, any other
    integral type except [bool] gives the signed integer type of smallest
    rank with the same size.  Every other [T] is ill-formed. *)
Definition make_signed_integral (i : integral) : option integral :=
  match i with
  | Bool => None
  | SignedChar | UnsignedChar => Some SignedChar
  | Short | UnsignedShort => Some Short
  | Int | UnsignedInt => Some Int
  | Long | UnsignedLong => Some Long
  | LongLong | UnsignedLongLong => Some LongLong
  | Char | WChar | Char16 | Char32 =>
      find (fun s => (width dm s =? width dm i)%positive) signed_integer_types
  end.

Definition make_signed (T : cxx_type) : compiled cxx_type :=
  match T with
  | Fundamental (Arithmetic (Integral i)) =>
      match make_signed_integral i with
      | Some s => ret (Fundamental (Arithmetic (Integral s)))
      | None => inl make_signed_ill_formed
      end
  | _ => inl make_signed_ill_formed
  end.

(** [std::numeric_limits<T>::min()], [max()] and [lowest()].  For a
    floating-point type [min()] is the smallest positive normalised value,
    [2 ^ (min_exponent - 1)].  The unspecialised template returns [T()]. *)
Definition integral_min (i : integral) : Z :=
  match i with
  | Bool => 0
  | _ => if is_signed i then - 2 ^ (Z.pos (width dm i) - 1) else 0
  end.

Definition integral_max (i : integral) : Z :=
  match i with
  | Bool => 1
  | _ => if is_signed i then 2 ^ (Z.pos (width dm i) - 1) - 1
         else 2 ^ Z.pos (width dm i) - 1
  end.

Definition floating_min (f : floating) : scalar :=
  SFloat 1 (min_exponent (format dm f) - 1).

Definition floating_max (f : floating) : scalar :=
  let fmt := format dm f in
  SFloat (2 ^ Z.pos (digits fmt) - 1) (max_exponent fmt - Z.pos (digits fmt)).

Definition floating_lowest (f : floating) : scalar :=
  let fmt := format dm f in
  SFloat (- (2 ^ Z.pos (digits fmt) - 1)) (max_exponent fmt - Z.pos (digits fmt)).

Definition numeric_limits_min (T : cxx_type) : scalar :=
  match T with
  | Fundamental (Arithmetic (Integral i)) => SInt (integral_min i)
  | Fundamental (Arithmetic (Floating f)) => floating_min f
  | _ => SValueInit
  end.

Definition numeric_limits_max (T : cxx_type) : scalar :=
  match T with
  | Fundamental (Arithmetic (Integral i)) => SInt (integral_max i)
  | Fundamental (Arithmetic (Floating f)) => floating_max f
  | _ => SValueInit
  end.

Definition numeric_limits_lowest (T : cxx_type) : scalar :=
  match T with
  | Fundamental (Arithmetic (Integral i)) => SInt (integral_min i)
  | Fundamental (Arithmetic (Floating f)) => floating_lowest f
  | _ => SValueInit
  end.

(** [duration::min()] is [duration(duration_values<Rep>::min())], which is
    [numeric_limits<Rep>::lowest()] ticks; [time_point::min()] is the time
    point that many ticks from the clock's epoch.  Likewise for [max()]. *)
Definition duration_min (d : duration) : scalar :=
  numeric_limits_lowest (Fundamental (Arithmetic (rep d))).

Definition duration_max (d : duration) : scalar :=
  numeric_limits_max (Fundamental (Arithmetic (rep d))).

Definition time_point_min (clock : string) (d : duration) : scalar :=
  duration_min d.

Definition time_point_max (clock : string) (d : duration) : scalar :=
  duration_max d.

(** What the standard asks of the integer widths, as far as [make_signed]
    needs it: an unsigned type is as wide as its signed counterpart, and
    every character type is as wide as some signed integer type. *)
Definition same_width (a b : integral) : bool :=
  (width dm a =? width dm b)%positive.

Definition has_signed_counterpart (i : integral) : bool :=
  existsb (fun s => same_width s i) signed_integer_types.

Definition data_model_ok : bool :=
  same_width UnsignedChar SignedChar && same_width UnsignedShort Short
  && same_width UnsignedInt Int && same_width UnsignedLong Long
  && same_width UnsignedLongLong LongLong
  && has_signed_counterpart Char && has_signed_counterpart WChar
  && has_signed_counterpart Char16 && has_signed_counterpart Char32.

End DataModel.

(** The LP64 data model of x86-64 Linux, with IEEE 754 [float] and [double]
    and the x87 extended [long double]. *)
Definition LP64 : data_model :=
  {| width := fun i =>
       match i with
       | Bool | Char | SignedChar | UnsignedChar => 8
       | Char16 | Short | UnsignedShort => 16
       | WChar | Char32 | Int | UnsignedInt => 32
       | Long | UnsignedLong | LongLong | UnsignedLongLong => 64
       end%positive;
     plain_char_signed := true;
     wchar_signed := true;
     format := fun f =>
       match f with
       | Float => {| digits := 24; min_exponent := -125; max_exponent := 128 |}
       | Double => {| digits := 53; min_exponent := -1021; max_exponent := 1024 |}
       | LongDouble => {| digits := 64; min_exponent := -16381; max_exponent := 16384 |}
       end |}.

Definition int_type : cxx_type := Fundamental (Arithmetic (Integral Int)).
Definition float_type : cxx_type := Fundamental (Arithmetic (Floating Float)).

End std.

(** ** [flow/include/dispatch.h] *)

Module flow.
Import std.

(** *** Streams, comparison, construction: what the templates ask of their
    type parameters *)

(** A [std::ostream], as the characters written to it so far. *)
Definition ostream : Type := string.

(** [os << x] for a type that has an [operator<<]. *)
Class Streamable (T : Type) : Type := put : ostream -> T -> ostream.

(** [a < b] for a type that has an [operator<]. *)
Class Less (T : Type) : Type := less : T -> T -> bool.

(** [T{args...}]: list-initialisation of a [T] from constructor arguments. *)
Class Constructible (Args T : Type) : Type := construct : Args -> T.

Definition newline : string := String "010"%char EmptyString.

#[export] Instance put_string : Streamable string := fun os s => os ++ s.

#[export] Instance put_Z : Streamable Z :=
  fun os z => os ++ NilZero.string_of_int (Z.to_int z).

#[export] Instance less_Z : Less Z := Z.ltb.

(** Copy construction: the argument list is one value of the type itself. *)
#[export] Instance copy_construct (T : Type) : Constructible T T := fun v => v.

(** *** Class members, and naming one from a function

    [put_member] is [os << object.name] and [assign_member] is
    [object.name = x]; [friend] tells whether the function that contains the
    expression is a member or a friend of the class. *)

Inductive access : Type := public | private.

Inductive member_kind (O : Type) : Type :=
| data_member (is_const : bool) (insert : ostream -> O -> ostream)
| member_function (is_const : bool).
Arguments data_member {O} is_const insert.
Arguments member_function {O} is_const.

Record member (O : Type) : Type :=
  { m_name : string; m_access : access; m_kind : member_kind O }.
Arguments m_name {O} _.
Arguments m_access {O} _.
Arguments m_kind {O} _.

Definition lookup {O : Type} (members : list (member O)) (name : string)
  : option (member O) :=
  find (fun m => (m_name m =? name)%string) members.

Definition accessible {O : Type} (friend : bool) (m : member O) : bool :=
  match m_access m with
  | public => true
  | private => friend
  end.

Definition put_member {O : Type} (members : list (member O)) (friend : bool)
    (os : ostream) (object : O) (name : string) : compiled ostream :=
  match lookup members name with
  | None => inl (no_member_named name)
  | Some m =>
      match m_kind m with
      | member_function _ => inl (member_function_not_called name)
      | data_member _ insert =>
          if accessible friend m then ret (insert os object)
          else inl (member_is_private name)
      end
  end.

(** Whether [object.name = x] is accepted: [name] has to be a data member,
    accessible and not const. *)
Definition assign_member {O : Type} (members : list (member O)) (friend : bool)
    (name : string) : compiled unit :=
  match lookup members name with
  | None => inl (no_member_named name)
  | Some m =>
      match m_kind m with
      | member_function _ => inl (member_function_not_called name)
      | data_member is_const _ =>
          if accessible friend m then
            if is_const then inl (member_is_const name) else ret tt
          else inl (member_is_private name)
      end
  end.

(** Whether [object = other] is accepted: the class has an [operator=] that
    the function writing the expression can reach. *)
Definition assign_object {O : Type} (members : list (member O)) (friend : bool)
  : compiled unit :=
  match lookup members "operator=" with
  | None => inl (no_member_named "operator=")
  | Some m =>
      match m_kind m with
      | data_member _ _ => inl (no_member_named "operator=")
      | member_function _ =>
          if accessible friend m then ret tt
          else inl (member_is_private "operator=")
      end
  end.

(** A constructor declaration: whether it is [explicit], which of its
    parameters have a default argument, and whether a parameter pack
    follows. *)
Record constructor : Type :=
  { is_explicit : bool; has_default : list bool; has_pack : bool }.

Definition required (c : constructor) : nat :=
  List.length (filter negb (has_default c)).

Definition callable_with (c : constructor) (n : nat) : bool :=
  (required c <=? n)%nat && (has_pack c || (n <=? List.length (has_default c))%nat).

(** A converting constructor: not [explicit], callable with one argument. *)
Definition converting (c : constructor) : bool :=
  negb (is_explicit c) && callable_with c 1.

(** *** [StampTraits] (dispatch.h:31-70) *)

Record StampTraits_members (StampT : Type) : Type :=
  { stamp_type : cxx_type;
    offset_type : cxx_type;
    min : StampT;
    max : StampT }.
Arguments stamp_type {StampT} _.
Arguments offset_type {StampT} _.
Arguments min {StampT} _.
Arguments max {StampT} _.

Section StampTraits.
Variable dm : data_model.

(** The primary template (dispatch.h:31-47). *)
Definition StampTraits_primary (StampT : cxx_type)
  : compiled (StampTraits_members scalar) :=
  static_assert (is_fundamental StampT) "'StampT' must be fundemental type" ;;
  offset <- make_signed dm StampT ;;
  ret {| stamp_type := StampT;
         offset_type := offset;
         min := numeric_limits_min dm StampT;
         max := numeric_limits_max dm StampT |}.

(** The partial specialisation for
    [std::chrono::time_point<ClockT, DurationT>] (dispatch.h:56-70). *)
Definition StampTraits_time_point (ClockT : string) (DurationT : duration)
  : compiled (StampTraits_members scalar) :=
  ret {| stamp_type := chrono_time_point ClockT DurationT;
         offset_type := chrono_duration DurationT;
         min := time_point_min dm ClockT DurationT;
         max := time_point_max dm ClockT DurationT |}.

(** [StampTraits<StampT>]: the specialisation when [StampT] is a
    [time_point], the primary template otherwise. *)
Definition StampTraits (StampT : cxx_type)
  : compiled (StampTraits_members scalar) :=
  match StampT with
  | chrono_time_point ClockT DurationT => StampTraits_time_point ClockT DurationT
  | _ => StampTraits_primary StampT
  end.
End StampTraits.

(** *** [Dispatch] (dispatch.h:94-150) *)

Record Dispatch (StampT ValueT : Type) : Type :=
  { stamp_ : StampT; value_ : ValueT }.
Arguments stamp_ {StampT ValueT} _.
Arguments value_ {StampT ValueT} _.

Section Dispatch.
Context {StampT ValueT : Type}.

(** dispatch.h:98 and dispatch.h:103-107 *)
Definition Dispatch_default_constructor : constructor :=
  {| is_explicit := false; has_default := []; has_pack := false |}.

Definition Dispatch_value_constructor : constructor :=
  {| is_explicit := true; has_default := [false]; has_pack := true |}.

Definition Dispatch_ctor {ValueArgsTs : Type}
    `{Constructible ValueArgsTs ValueT}
    (stamp : StampT) (value_args : ValueArgsTs) : Dispatch StampT ValueT :=
  {| stamp_ := stamp; value_ := construct value_args |}.

(** dispatch.h:112-115 *)
Definition stamp (this : Dispatch StampT ValueT) : StampT := stamp_ this.

(** dispatch.h:120-123 *)
Definition data (this : Dispatch StampT ValueT) : ValueT := value_ this.

(** [operator<] (dispatch.h:128-131) *)
Definition Dispatch_lt `{Less StampT} (this other : Dispatch StampT ValueT) : bool :=
  less (stamp_ this) (stamp_ other).

Context `{Streamable StampT} `{Streamable ValueT}.

(** The members of [Dispatch], in the order of the class body: the two
    constructors (dispatch.h:98 and 103-107), the three const member
    functions, the two private fields, and the copy and move [operator=],
    which the class does not declare and the compiler therefore declares
    itself, public and not const.  A constructor builds a new instance; the
    entries say [false] for it because it is not a const member function. *)
Definition Dispatch_members : list (member (Dispatch StampT ValueT)) :=
  [ {| m_name := "Dispatch"; m_access := public; m_kind := member_function false |};
    {| m_name := "Dispatch"; m_access := public; m_kind := member_function false |};
    {| m_name := "stamp"; m_access := public; m_kind := member_function true |};
    {| m_name := "data"; m_access := public; m_kind := member_function true |};
    {| m_name := "operator<"; m_access := public; m_kind := member_function true |};
    {| m_name := "stamp_"; m_access := private;
       m_kind := data_member false (fun os d => put os (stamp_ d)) |};
    {| m_name := "value_"; m_access := private;
       m_kind := data_member false (fun os d => put os (value_ d)) |};
    {| m_name := "operator="; m_access := public; m_kind := member_function false |} ].

(** [this = other] written by client code: the implicit [operator=] assigns
    member by member (for a stamp type and a value type that can be assigned
    themselves).  The result is [this] after the assignment. *)
Definition Dispatch_copy_assign (this other : Dispatch StampT ValueT)
  : compiled (Dispatch StampT ValueT) :=
  assign_object Dispatch_members false ;;
  ret {| stamp_ := stamp_ other; value_ := value_ other |}.

(** The friend [operator<<] (dispatch.h:146-149) *)
Definition Dispatch_friend_ostream (os : ostream)
    (dispatch : Dispatch StampT ValueT) : compiled ostream :=
  os <- put_member Dispatch_members true (put os "stamp: ") dispatch "stamp_" ;;
  put_member Dispatch_members true (put os (newline ++ "value: ")) dispatch "value_".

(** The [operator<<] template of dispatch_ostream.h:25-29 *)
Definition Dispatch_template_ostream (os : ostream)
    (dispatch : Dispatch StampT ValueT) : compiled ostream :=
  os <- put_member Dispatch_members false (put os "stamp: ") dispatch "stamp" ;;
  put_member Dispatch_members false (put os (newline ++ "value: ")) dispatch "value".
End Dispatch.

(** *** [DispatchTraits] (dispatch.h:156-172) *)

Record DispatchTraits_members : Type :=
  { dispatch_stamp_type : cxx_type;
    dispatch_value_type : cxx_type;
    dispatch_offset_type : cxx_type }.

(** [DispatchTraits<Dispatch<StampT, ValueT>>] *)
Definition DispatchTraits (dm : data_model) (StampT ValueT : cxx_type)
  : compiled DispatchTraits_members :=
  traits <- StampTraits dm StampT ;;
  ret {| dispatch_stamp_type := StampT;
         dispatch_value_type := ValueT;
         dispatch_offset_type := offset_type traits |}.

(** *** [CaptureRange] (dispatch.h:180-212) *)

Record CaptureRange (StampT : Type) : Type :=
  { lower_stamp : StampT; upper_stamp : StampT }.
Arguments lower_stamp {StampT} _.
Arguments upper_stamp {StampT} _.

(** The argument lists the constructor can be called with. *)
Inductive CaptureRange_args (StampT : Type) : Type :=
| no_args
| one_arg (_lower_stamp : StampT)
| two_args (_lower_stamp _upper_stamp : StampT).
Arguments no_args {StampT}.
Arguments one_arg {StampT} _.
Arguments two_args {StampT} _ _.

Section CaptureRange.
Context {StampT : Type}.

(** dispatch.h:196-200 *)
Definition CaptureRange_constructor : constructor :=
  {| is_explicit := false; has_default := [true; true]; has_pack := false |}.

(** [traits] is [StampTraits<StampT>]; a default argument is instantiated
    only by a call that uses it. *)
Definition CaptureRange_ctor (traits : compiled (StampTraits_members StampT))
    (args : CaptureRange_args StampT) : compiled (CaptureRange StampT) :=
  match args with
  | two_args _lower_stamp _upper_stamp =>
      ret {| lower_stamp := _lower_stamp; upper_stamp := _upper_stamp |}
  | one_arg _lower_stamp =>
      t <- traits ;;
      ret {| lower_stamp := _lower_stamp; upper_stamp := max t |}
  | no_args =>
      t <- traits ;;
      ret {| lower_stamp := min t; upper_stamp := max t |}
  end.

(** The implicit conversion of a stamp to a [CaptureRange]. *)
Definition CaptureRange_of_stamp (traits : compiled (StampTraits_members StampT))
    (stamp : StampT) : compiled (CaptureRange StampT) :=
  if converting CaptureRange_constructor
  then CaptureRange_ctor traits (one_arg stamp)
  else inl (no_member_named "CaptureRange(StampT)").

Context `{Streamable StampT}.

(** The members of [CaptureRange]: the two public fields, the constructor
    (dispatch.h:196-200) and the copy and move [operator=] the compiler
    declares, public and not const. *)
Definition CaptureRange_members : list (member (CaptureRange StampT)) :=
  [ {| m_name := "lower_stamp"; m_access := public;
       m_kind := data_member false (fun os r => put os (lower_stamp r)) |};
    {| m_name := "upper_stamp"; m_access := public;
       m_kind := data_member false (fun os r => put os (upper_stamp r)) |};
    {| m_name := "CaptureRange"; m_access := public; m_kind := member_function false |};
    {| m_name := "operator="; m_access := public; m_kind := member_function false |} ].

(** The friend [operator<<] (dispatch.h:208-211) *)
Definition CaptureRange_friend_ostream (os : ostream)
    (range : CaptureRange StampT) : compiled ostream :=
  os <- put_member CaptureRange_members true (put os "lower_stamp: ") range "lower_stamp" ;;
  put_member CaptureRange_members true (put os ", upper_stamp: ") range "upper_stamp".

(** The [operator<<] template of dispatch_ostream.h:39-42 *)
Definition CaptureRange_template_ostream (os : ostream)
    (range : CaptureRange StampT) : compiled ostream :=
  os <- put_member CaptureRange_members false (put os "lower_stamp: ") range "lower_stamp" ;;
  put_member CaptureRange_members false (put os ", upper_stamp: ") range "upper_stamp".

(** [range.name = x] written by client code. *)
Definition CaptureRange_assign (range : CaptureRange StampT) (name : string)
    (x : StampT) : compiled (CaptureRange StampT) :=
  assign_member CaptureRange_members false name ;;
  if (name =? "lower_stamp")%string
  then ret {| lower_stamp := x; upper_stamp := upper_stamp range |}
  else ret {| lower_stamp := lower_stamp range; upper_stamp := x |}.

(** [this = other] written by client code, through the implicit
    [operator=]; the result is [this] after the assignment. *)
Definition CaptureRange_copy_assign (this other : CaptureRange StampT)
  : compiled (CaptureRange StampT) :=
  assign_object CaptureRange_members false ;;
  ret {| lower_stamp := lower_stamp other; upper_stamp := upper_stamp other |}.
End CaptureRange.

(** [StampTraits<StampT>] for an integral [StampT], with the stamps read as
    integers. *)
Definition integer_StampTraits (dm : data_model) (i : integral)
  : compiled (StampTraits_members Z) :=
  t <- StampTraits dm (Fundamental (Arithmetic (Integral i))) ;;
  ret {| stamp_type := stamp_type t;
         offset_type := offset_type t;
         min := integral_min dm i;
         max := integral_max dm i |}.

(** *** [os << x] with both headers included

    dispatch_ostream.h includes dispatch.h, so a translation unit that
    includes it sees two [operator<<] candidates for a [Dispatch] and two for
    a [CaptureRange]: the friend defined in the class, which is not a
    template, and the function template.  Their parameter types are the same,
    so overload resolution takes the candidate that is not a template
    specialisation, and two candidates of the same kind are ambiguous.  Only
    the chosen candidate has its body instantiated. *)

Record overload (O : Type) : Type :=
  { is_template : bool; body : ostream -> O -> compiled ostream }.
Arguments is_template {O} _.
Arguments body {O} _.

Definition best_viable {O : Type} (candidates : list (overload O))
  : option (overload O) :=
  match filter (fun f => negb (is_template f)) candidates with
  | [f] => Some f
  | _ :: _ :: _ => None
  | [] =>
      match candidates with
      | [f] => Some f
      | _ => None
      end
  end.

(** [os << x]: [None] when no candidate is the best one. *)
Definition shift_left {O : Type} (candidates : list (overload O))
    (os : ostream) (x : O) : option (compiled ostream) :=
  option_map (fun f => body f os x) (best_viable candidates).

Definition Dispatch_overloads {StampT ValueT : Type}
    `{Streamable StampT} `{Streamable ValueT}
  : list (overload (Dispatch StampT ValueT)) :=
  [ {| is_template := false; body := Dispatch_friend_ostream |};
    {| is_template := true; body := Dispatch_template_ostream |} ].

Definition CaptureRange_overloads {StampT : Type} `{Streamable StampT}
  : list (overload (CaptureRange StampT)) :=
  [ {| is_template := false; body := CaptureRange_friend_ostream |};
    {| is_template := true; body := CaptureRange_template_ostream |} ].

(** An [operator<<] that leaves what the stream holds and adds to its end. *)
Definition appends (T : Type) `{Streamable T} : Prop :=
  forall (os : ostream) (x : T), put os x = os ++ put "" x.

(** The text [os << z] adds for an integer [z]. *)
Definition decimal (z : Z) : string := NilZero.string_of_int (Z.to_int z).

(** Whether the character [c] occurs in the text [s]. *)
Fixpoint occurs (c : ascii) (s : string) : bool :=
  match s with
  | EmptyString => false
  | String a s' => Ascii.eqb c a || occurs c s'
  end.

End flow.

(** * Properties *)

Import std flow.

(** ** Dispatch *)

Section DispatchProperties.
Context {StampT ValueT ValueArgsTs : Type}.
Context `{Less StampT} `{Constructible ValueArgsTs ValueT}.

(** [operator<] reads the stamps of its two operands and nothing else. *)
Lemma Dispatch_lt_stamps (d1 d2 : Dispatch StampT ValueT) :
  Dispatch_lt d1 d2 = less (stamp d1) (stamp d2).
Proof. reflexivity. Qed.

(** C1: [Dispatch(s1, v1) < Dispatch(s2, v2)] returns what [s1 < s2] returns,
    whatever the value arguments [v1] and [v2] are; so it is true exactly when
    [s1 < s2] is. *)
Theorem Dispatch_lt_iff_stamp_lt (s1 s2 : StampT) (v1 v2 : ValueArgsTs) :
  Dispatch_lt (Dispatch_ctor s1 v1) (Dispatch_ctor s2 v2) = less s1 s2
  /\ (Dispatch_lt (Dispatch_ctor s1 v1) (Dispatch_ctor s2 v2) = true
      <-> less s1 s2 = true).
Proof.
  assert (E : Dispatch_lt (Dispatch_ctor s1 v1) (Dispatch_ctor s2 v2) = less s1 s2)
    by (rewrite Dispatch_lt_stamps; reflexivity).
  split; [exact E | rewrite E; tauto].
Qed.

(** C5: a [Dispatch] constructed from a stamp [s] and value arguments [args]
    has [stamp() == s] and [data()] equal to the value built from [args]. *)
Theorem Dispatch_ctor_round_trip (s : StampT) (args : ValueArgsTs) :
  stamp (Dispatch_ctor s args) = s
  /\ data (Dispatch_ctor s args) = (construct args : ValueT).
Proof. split; reflexivity. Qed.

(** C6: when [<] on stamps is irreflexive, two dispatches with the same stamp
    and different values are unordered: [<] is false both ways. *)
Theorem Dispatch_equal_stamps_unordered
    (less_irrefl : forall s : StampT, less s s = false)
    (s : StampT) (v1 v2 : ValueArgsTs)
    (different : (construct v1 : ValueT) <> construct v2) :
  Dispatch_lt (Dispatch_ctor s v1) (Dispatch_ctor s v2) = false
  /\ Dispatch_lt (Dispatch_ctor s v2) (Dispatch_ctor s v1) = false.
Proof.
  rewrite !Dispatch_lt_stamps. unfold stamp, Dispatch_ctor; simpl.
  split; apply less_irrefl.
Qed.
End DispatchProperties.

(** [Dispatch<int32, std::string>(5, "x")] gives back 5 and "x". *)
Example Dispatch_5_x :
  stamp (Dispatch_ctor (ValueT := string) 5 "x") = 5
  /\ data (Dispatch_ctor (ValueT := string) 5 "x") = "x".
Proof. split; reflexivity. Qed.

(** [Dispatch<int32, std::string>(5, "x")] and [(10, "y")]: the first is less
    than the second and the second is not less than the first. *)
Example Dispatch_lt_5_10 :
  Dispatch_lt (Dispatch_ctor (ValueT := string) 5 "x") (Dispatch_ctor 10 "y") = true
  /\ Dispatch_lt (Dispatch_ctor (ValueT := string) 10 "y") (Dispatch_ctor 5 "x") = false.
Proof. split; reflexivity. Qed.

Lemma Dispatch_equal_stamps_unordered_witness :
  Dispatch_lt (Dispatch_ctor (ValueT := string) 5 "x") (Dispatch_ctor 5 "y") = false
  /\ Dispatch_lt (Dispatch_ctor (ValueT := string) 5 "y") (Dispatch_ctor 5 "x") = false.
Proof.
  apply (Dispatch_equal_stamps_unordered (ValueT := string) Z.ltb_irrefl 5 "x" "y").
  discriminate.
Defined.

(** ** CaptureRange *)

Section CaptureRangeProperties.
Variable dm : data_model.
Variable S : cxx_type.
Variable t : StampTraits_members scalar.
Hypothesis S_resolves : StampTraits dm S = inr t.

(** With [StampTraits<S>] resolved, the defaulted arguments are its bounds. *)
Lemma CaptureRange_ctor_defaults (args : CaptureRange_args scalar) :
  CaptureRange_ctor (StampTraits dm S) args =
  inr match args with
      | no_args => {| lower_stamp := min t; upper_stamp := max t |}
      | one_arg a => {| lower_stamp := a; upper_stamp := max t |}
      | two_args a b => {| lower_stamp := a; upper_stamp := b |}
      end.
Proof. rewrite S_resolves. destruct args; reflexivity. Qed.
End CaptureRangeProperties.

(** C4: for a stamp type [S] whose [StampTraits] resolve, the [CaptureRange]
    constructed without arguments has [lower_stamp == StampTraits<S>::min()]
    and [upper_stamp == StampTraits<S>::max()]. *)
Theorem CaptureRange_default_is_full_range
    (dm : data_model) (S : cxx_type) (t : StampTraits_members scalar) :
  StampTraits dm S = inr t ->
  exists range,
    CaptureRange_ctor (StampTraits dm S) no_args = inr range
    /\ lower_stamp range = min t
    /\ upper_stamp range = max t.
Proof.
  intros S_resolves.
  rewrite (CaptureRange_ctor_defaults dm S t S_resolves no_args).
  eexists; repeat split.
Qed.

Lemma CaptureRange_default_is_full_range_witness :
  exists range,
    CaptureRange_ctor (StampTraits LP64 int_type) no_args = inr range
    /\ lower_stamp range = SInt (-2147483648)
    /\ upper_stamp range = SInt 2147483647.
Proof.
  apply (CaptureRange_default_is_full_range LP64 int_type
           {| stamp_type := int_type; offset_type := int_type;
              min := SInt (-2147483648); max := SInt 2147483647 |}).
  reflexivity.
Defined.

(** C8: [CaptureRange<S>(a, b)] has [lower_stamp == a] and [upper_stamp == b]
    for every [a] and [b], in whatever order they are, and whether or not
    [StampTraits<S>] resolves. *)
Theorem CaptureRange_explicit_round_trip
    (StampT : Type) (traits : compiled (StampTraits_members StampT)) (a b : StampT) :
  exists range,
    CaptureRange_ctor traits (two_args a b) = inr range
    /\ lower_stamp range = a
    /\ upper_stamp range = b.
Proof. eexists; repeat split. Qed.

(** An inverted range is taken as it is. *)
Example CaptureRange_inverted :
  CaptureRange_ctor (StampTraits LP64 int_type) (two_args (SInt 9) (SInt 3))
  = inr {| lower_stamp := SInt 9; upper_stamp := SInt 3 |}.
Proof. reflexivity. Qed.

(** The two-argument form does not instantiate [StampTraits]: it is accepted
    for a stamp type that has none. *)
Example CaptureRange_explicit_without_traits :
  CaptureRange_ctor (StampTraits LP64 (class_type "std::string"))
    (two_args (SInt 1) (SInt 2))
  = inr {| lower_stamp := SInt 1; upper_stamp := SInt 2 |}.
Proof. reflexivity. Qed.

(** C10: the constructor can be called with one argument [a], which gives
    [lower_stamp == a] and [upper_stamp == StampTraits<S>::max()]; not being
    [explicit], it is a converting constructor, and the conversion of a stamp
    gives that same range. *)
Theorem CaptureRange_one_argument
    (dm : data_model) (S : cxx_type) (t : StampTraits_members scalar) (a : scalar) :
  StampTraits dm S = inr t ->
  callable_with (CaptureRange_constructor) 1 = true
  /\ CaptureRange_ctor (StampTraits dm S) (one_arg a)
     = inr {| lower_stamp := a; upper_stamp := max t |}
  /\ converting (CaptureRange_constructor) = true
  /\ CaptureRange_of_stamp (StampTraits dm S) a
     = inr {| lower_stamp := a; upper_stamp := max t |}.
Proof.
  intros S_resolves.
  pose proof (CaptureRange_ctor_defaults dm S t S_resolves (one_arg a)) as E.
  repeat split; exact E.
Qed.

Lemma CaptureRange_one_argument_witness :
  callable_with (CaptureRange_constructor) 1 = true
  /\ CaptureRange_ctor (StampTraits LP64 int_type) (one_arg (SInt 3))
     = inr {| lower_stamp := SInt 3; upper_stamp := SInt 2147483647 |}
  /\ converting (CaptureRange_constructor) = true
  /\ CaptureRange_of_stamp (StampTraits LP64 int_type) (SInt 3)
     = inr {| lower_stamp := SInt 3; upper_stamp := SInt 2147483647 |}.
Proof.
  apply (CaptureRange_one_argument LP64 int_type
           {| stamp_type := int_type; offset_type := int_type;
              min := SInt (-2147483648); max := SInt 2147483647 |} (SInt 3)).
  reflexivity.
Defined.

(** The constructor of [Dispatch] that takes a stamp is [explicit]: a stamp
    does not convert to a [Dispatch]. *)
Example Dispatch_constructor_not_converting :
  converting Dispatch_value_constructor = false.
Proof. reflexivity. Qed.

(** ** StampTraits *)

Section StampTraitsProperties.
Variable dm : data_model.

Lemma signed_integer_types_fixed (s : integral) :
  In s signed_integer_types -> make_signed_integral dm s = Some s.
Proof.
  simpl. intros [E | [E | [E | [E | [E | []]]]]]; subst s; reflexivity.
Qed.

(** Under a data model that gives every integral type a signed integer type
    of its width, [make_signed] accepts every integral type but [bool], and
    answers with a signed integer type of the same width. *)
Lemma make_signed_integral_total (i : integral) :
  data_model_ok dm = true ->
  i <> Bool ->
  exists s,
    make_signed_integral dm i = Some s
    /\ In s signed_integer_types
    /\ width dm s = width dm i.
Proof.
  unfold data_model_ok, same_width. intros ok not_bool.
  repeat (apply andb_prop in ok; destruct ok as [ok ?]).
  assert (by_search : has_signed_counterpart dm i = true ->
            exists s, find (fun s => (width dm s =? width dm i)%positive)
                        signed_integer_types = Some s
                      /\ In s signed_integer_types /\ width dm s = width dm i).
  { unfold has_signed_counterpart, same_width. intros has.
    apply existsb_exists in has. destruct has as [x [x_in x_width]].
    destruct (find _ signed_integer_types) as [s |] eqn:found.
    - exists s. apply find_some in found. destruct found as [s_in s_width].
      apply Pos.eqb_eq in s_width. auto.
    - apply find_none with (x := x) in found; [congruence | exact x_in]. }
  destruct i; try congruence; try (apply by_search; assumption);
    eexists; (split; [reflexivity |]); (split; [simpl; tauto |]);
    try reflexivity; symmetry; apply Pos.eqb_eq; assumption.
Qed.

Lemma integral_min_lt_max (i : integral) : integral_min dm i < integral_max dm i.
Proof.
  assert (P : forall w : positive, 0 < 2 ^ (Z.pos w - 1)) by (intro; apply Z.pow_pos_nonneg; lia).
  assert (Q : forall w : positive, 1 < 2 ^ Z.pos w) by (intro; apply Z.pow_gt_1; lia).
  unfold integral_min, integral_max.
  destruct i; try lia; destruct (is_signed dm _);
    match goal with
    | |- context [2 ^ (Z.pos ?w - 1)] => specialize (P w); lia
    | |- context [2 ^ Z.pos ?w] => specialize (Q w); lia
    end.
Qed.

Lemma scalar_ltb_SInt (a b : Z) : scalar_ltb (SInt a) (SInt b) = (a <? b).
Proof. unfold scalar_ltb; simpl. rewrite !Z.mul_1_r. reflexivity. Qed.

(** The primary template goes through [make_signed]: it resolves exactly when
    [make_signed] accepts the stamp type. *)
Lemma StampTraits_primary_fundamental (f : fundamental) :
  StampTraits dm (Fundamental f) =
  match make_signed dm (Fundamental f) with
  | inr offset =>
      inr {| stamp_type := Fundamental f;
             offset_type := offset;
             min := numeric_limits_min dm (Fundamental f);
             max := numeric_limits_max dm (Fundamental f) |}
  | inl e => inl e
  end.
Proof.
  unfold StampTraits, StampTraits_primary; simpl.
  destruct (make_signed dm (Fundamental f)); reflexivity.
Qed.

(** For a floating-point type, [bool], [void] and [std::nullptr_t] the
    primary template passes its [static_assert] and is rejected by
    [make_signed]. *)
Lemma StampTraits_rejects_non_integer :
  (forall f : floating,
      StampTraits dm (Fundamental (Arithmetic (Floating f))) = inl make_signed_ill_formed)
  /\ StampTraits dm (Fundamental (Arithmetic (Integral Bool))) = inl make_signed_ill_formed
  /\ StampTraits dm (Fundamental Void) = inl make_signed_ill_formed
  /\ StampTraits dm (Fundamental NullPtr) = inl make_signed_ill_formed.
Proof. repeat split. Qed.

(** A type that is not fundamental and has no specialisation fails the
    [static_assert]. *)
Lemma StampTraits_rejects_class (name : string) :
  StampTraits dm (class_type name)
  = inl (static_assert_failed "'StampT' must be fundemental type").
Proof. reflexivity. Qed.

End StampTraitsProperties.

(** C2, as the code has it: for every integer type [S] other than [bool] the
    unspecialised [StampTraits<S>] resolves; its [offset_type] is
    [std::make_signed<S>::type], a signed integer type as wide as [S] and [S]
    itself when [S] is one; its [min()] and [max()] are those of
    [std::numeric_limits<S>]; and [min() < max()]. *)
Theorem StampTraits_integer_default (dm : data_model) (i : integral) :
  data_model_ok dm = true ->
  i <> Bool ->
  let S := Fundamental (Arithmetic (Integral i)) in
  exists s t,
    In s signed_integer_types
    /\ width dm s = width dm i
    /\ (In i signed_integer_types -> s = i)
    /\ make_signed dm S = inr (Fundamental (Arithmetic (Integral s)))
    /\ StampTraits dm S = inr t
    /\ stamp_type t = S
    /\ offset_type t = Fundamental (Arithmetic (Integral s))
    /\ min t = numeric_limits_min dm S
    /\ max t = numeric_limits_max dm S
    /\ scalar_ltb (min t) (max t) = true.
Proof.
  intros ok not_bool S.
  destruct (make_signed_integral_total dm i ok not_bool) as [s [E [s_in s_width]]].
  assert (M : make_signed dm S = inr (Fundamental (Arithmetic (Integral s))))
    by (unfold S, make_signed; rewrite E; reflexivity).
  exists s. eexists.
  split; [exact s_in |]. split; [exact s_width |].
  split.
  { intros i_signed. apply (signed_integer_types_fixed dm) in i_signed. congruence. }
  split; [exact M |].
  split.
  { unfold S. rewrite StampTraits_primary_fundamental. fold S. rewrite M. reflexivity. }
  repeat (split; [reflexivity |]).
  simpl. rewrite scalar_ltb_SInt. apply Z.ltb_lt, integral_min_lt_max.
Qed.

Lemma StampTraits_integer_default_witness :
  exists s t,
    In s signed_integer_types
    /\ width LP64 s = width LP64 UnsignedInt
    /\ (In UnsignedInt signed_integer_types -> s = UnsignedInt)
    /\ make_signed LP64 (Fundamental (Arithmetic (Integral UnsignedInt)))
       = inr (Fundamental (Arithmetic (Integral s)))
    /\ StampTraits LP64 (Fundamental (Arithmetic (Integral UnsignedInt))) = inr t
    /\ stamp_type t = Fundamental (Arithmetic (Integral UnsignedInt))
    /\ offset_type t = Fundamental (Arithmetic (Integral s))
    /\ min t = numeric_limits_min LP64 (Fundamental (Arithmetic (Integral UnsignedInt)))
    /\ max t = numeric_limits_max LP64 (Fundamental (Arithmetic (Integral UnsignedInt)))
    /\ scalar_ltb (min t) (max t) = true.
Proof.
  apply (StampTraits_integer_default LP64 UnsignedInt);
    [reflexivity | discriminate].
Defined.

(** [StampTraits<unsigned int>] under LP64. *)
Example StampTraits_unsigned_int :
  StampTraits LP64 (Fundamental (Arithmetic (Integral UnsignedInt)))
  = inr {| stamp_type := Fundamental (Arithmetic (Integral UnsignedInt));
           offset_type := int_type;
           min := SInt 0;
           max := SInt 4294967295 |}.
Proof. reflexivity. Qed.

(** C2 as stated fails at [float]: a fundamental scalar type, whose numeric
    limits satisfy [min() < max()], and for which [StampTraits<float>] does
    not instantiate, because [std::make_signed<float>] is ill-formed. *)
Lemma StampTraits_float_rejected :
  is_fundamental float_type = true
  /\ scalar_ltb (numeric_limits_min LP64 float_type) (numeric_limits_max LP64 float_type) = true
  /\ make_signed LP64 float_type = inl make_signed_ill_formed
  /\ StampTraits LP64 float_type = inl make_signed_ill_formed.
Proof. repeat split; vm_compute; reflexivity. Qed.

(** C7: for every clock and duration, [StampTraits<time_point<ClockT,
    DurationT>>] is the specialisation: its [offset_type] is [DurationT]
    itself, which [std::make_signed] never yields, and its [min()] and [max()]
    are the time point's own.  The primary template would have rejected the
    type. *)
Theorem StampTraits_time_point_specialization
    (dm : data_model) (ClockT : string) (DurationT : duration) :
  StampTraits dm (chrono_time_point ClockT DurationT)
  = inr {| stamp_type := chrono_time_point ClockT DurationT;
           offset_type := chrono_duration DurationT;
           min := time_point_min dm ClockT DurationT;
           max := time_point_max dm ClockT DurationT |}
  /\ StampTraits dm (chrono_time_point ClockT DurationT)
     = StampTraits_time_point dm ClockT DurationT
  /\ (forall T, make_signed dm T <> inr (chrono_duration DurationT))
  /\ resolvable (StampTraits_primary dm (chrono_time_point ClockT DurationT)) = false.
Proof.
  repeat split.
  intros T. unfold make_signed.
  destruct T as [[| | [i | f]] | | |]; try discriminate.
  destruct (make_signed_integral dm i); discriminate.
Qed.

(** [StampTraits] of a [steady_clock] time point counting nanoseconds in a
    [long long]. *)
Example StampTraits_steady_clock :
  let nanoseconds := {| rep := Integral LongLong;
                        period := {| num := 1; den := 1000000000 |} |} in
  StampTraits LP64 (chrono_time_point "std::chrono::steady_clock" nanoseconds)
  = inr {| stamp_type := chrono_time_point "std::chrono::steady_clock" nanoseconds;
           offset_type := chrono_duration nanoseconds;
           min := SInt (-9223372036854775808);
           max := SInt 9223372036854775807 |}.
Proof. reflexivity. Qed.

(** ** What client code can change *)

(** Case analysis over the members of a class, one goal per declaration;
    [tac] has to close each of them. *)
Ltac each_member m m_in tac :=
  simpl in m_in;
  repeat (destruct m_in as [? | m_in]; [subst m; tac |]);
  destruct m_in.

Section Mutability.
Context {StampT ValueT : Type} `{Streamable StampT} `{Streamable ValueT}.

(** An accepted assignment names a data member that is accessible and not
    const. *)
Lemma assign_member_accepted {O : Type} (members : list (member O))
    (friend : bool) (name : string) :
  resolvable (assign_member members friend name) = true ->
  exists m insert,
    In m members /\ m_name m = name
    /\ m_kind m = data_member false insert /\ accessible friend m = true.
Proof.
  unfold assign_member, lookup.
  destruct (find _ members) as [m |] eqn:found; [| discriminate].
  apply find_some in found. destruct found as [m_in m_named].
  apply String.eqb_eq in m_named.
  destruct (m_kind m) as [is_const insert |] eqn:kind; [| discriminate].
  destruct (accessible friend m) eqn:acc; [| discriminate].
  destruct is_const; [discriminate |].
  intros _. exists m, insert. auto.
Qed.

(** Whatever name client code writes, [dispatch.name = x] is rejected: the
    name is unknown, or a member function, or a private field. *)
Lemma Dispatch_not_assignable (name : string) :
  resolvable (assign_member (Dispatch_members (StampT := StampT) (ValueT := ValueT))
                false name) = false.
Proof.
  apply not_true_is_false. intros accepted.
  apply assign_member_accepted in accepted.
  destruct accepted as [m [insert [m_in [_ [kind acc]]]]].
  each_member m m_in ltac:(simpl in kind, acc; discriminate).
Qed.

Lemma CaptureRange_assign_lower (range : CaptureRange StampT) (x : StampT) :
  CaptureRange_assign range "lower_stamp" x
  = inr {| lower_stamp := x; upper_stamp := upper_stamp range |}.
Proof. reflexivity. Qed.

Lemma CaptureRange_assign_upper (range : CaptureRange StampT) (x : StampT) :
  CaptureRange_assign range "upper_stamp" x
  = inr {| lower_stamp := lower_stamp range; upper_stamp := x |}.
Proof. reflexivity. Qed.

Lemma Dispatch_copy_assign_other (this other : Dispatch StampT ValueT) :
  Dispatch_copy_assign this other = inr other.
Proof. destruct other. reflexivity. Qed.

Lemma CaptureRange_copy_assign_other (this other : CaptureRange StampT) :
  CaptureRange_copy_assign this other = inr other.
Proof. destruct other. reflexivity. Qed.

(** C3, as the code has it: neither type is immutable once constructed.
    [Dispatch] declares no setter: [stamp()], [data()] and [operator<] are
    const, what else it has as member functions are its constructors and the
    implicit [operator=], and client code cannot assign a field of a
    [Dispatch]; but it can assign a whole [Dispatch], which then holds the
    stamp and the value of the other one.  [CaptureRange] has no member
    function but its constructor and the implicit [operator=]; its two fields
    are public and not const, so client code can assign either, and the range
    then holds the assigned stamp; a whole [CaptureRange] can be assigned
    too. *)
Theorem constructed_instances_can_change :
  (forall m is_const,
      In m (Dispatch_members (StampT := StampT) (ValueT := ValueT)) ->
      m_kind m = member_function is_const ->
      (is_const = true
       /\ (m_name m = "stamp" \/ m_name m = "data" \/ m_name m = "operator<"))
      \/ (is_const = false
          /\ (m_name m = "Dispatch" \/ m_name m = "operator=")))
  /\ (forall name,
         resolvable (assign_member (Dispatch_members (StampT := StampT) (ValueT := ValueT))
                       false name) = false)
  /\ (forall this other : Dispatch StampT ValueT,
         Dispatch_copy_assign this other = inr other)
  /\ (forall m is_const,
         In m (CaptureRange_members (StampT := StampT)) ->
         m_kind m = member_function is_const ->
         is_const = false
         /\ (m_name m = "CaptureRange" \/ m_name m = "operator="))
  /\ (forall (range : CaptureRange StampT) x,
         CaptureRange_assign range "lower_stamp" x
         = inr {| lower_stamp := x; upper_stamp := upper_stamp range |})
  /\ (forall (range : CaptureRange StampT) x,
         CaptureRange_assign range "upper_stamp" x
         = inr {| lower_stamp := lower_stamp range; upper_stamp := x |})
  /\ (forall this other : CaptureRange StampT,
         CaptureRange_copy_assign this other = inr other).
Proof.
  split; [| split; [| split; [| split; [| split; [| split]]]]].
  - intros m c m_in kind.
    each_member m m_in
      ltac:(simpl in kind; first [discriminate | injection kind as <-; simpl; tauto]).
  - exact Dispatch_not_assignable.
  - exact Dispatch_copy_assign_other.
  - intros m c m_in kind.
    each_member m m_in
      ltac:(simpl in kind; first [discriminate | injection kind as <-; simpl; tauto]).
  - exact CaptureRange_assign_lower.
  - exact CaptureRange_assign_upper.
  - exact CaptureRange_copy_assign_other.
Qed.
End Mutability.

(** On [CaptureRange<int>(3, 9)], after [range.lower_stamp = 5] the lower
    stamp is 5. *)
Lemma CaptureRange_lower_stamp_reassigned :
  (range <- CaptureRange_ctor (integer_StampTraits LP64 Int) (two_args 3 9) ;;
   CaptureRange_assign range "lower_stamp" 5)
  = inr {| lower_stamp := 5; upper_stamp := 9 |}.
Proof. reflexivity. Qed.

(** C3 as stated fails for both types.  [Dispatch<int, std::string>(5, "x")]
    has stamp 5 and value "x"; after it is assigned
    [Dispatch<int, std::string>(10, "y")] the same object has stamp 10 and
    value "y".  [CaptureRange<int>(3, 9)] has lower stamp 3; after
    [range.lower_stamp = 5] it has lower stamp 5, and after it is assigned
    [CaptureRange<int>(1, 2)] it has the bounds 1 and 2. *)
Lemma constructed_instances_changed :
  stamp (Dispatch_ctor (ValueT := string) 5 "x") = 5
  /\ data (Dispatch_ctor (ValueT := string) 5 "x") = "x"
  /\ (Dispatch_copy_assign (Dispatch_ctor (ValueT := string) 5 "x") (Dispatch_ctor 10 "y"))
     = inr {| stamp_ := 10; value_ := "y" |}
  /\ CaptureRange_ctor (integer_StampTraits LP64 Int) (two_args 3 9)
     = inr {| lower_stamp := 3; upper_stamp := 9 |}
  /\ CaptureRange_assign {| lower_stamp := 3; upper_stamp := 9 |} "lower_stamp" 5
     = inr {| lower_stamp := 5; upper_stamp := 9 |}
  /\ CaptureRange_copy_assign {| lower_stamp := 3; upper_stamp := 9 |}
       {| lower_stamp := 1; upper_stamp := 2 |}
     = inr {| lower_stamp := 1; upper_stamp := 2 |}.
Proof. repeat split. Qed.

(** ** Streaming *)

Section Streaming.
Context {StampT ValueT : Type} `{Streamable StampT} `{Streamable ValueT}.

(** The friend [operator<<] of [Dispatch] writes "stamp: ", the stamp, a
    newline and "value: ", and the value, in that order. *)
Lemma Dispatch_friend_ostream_text (os : ostream) (d : Dispatch StampT ValueT) :
  Dispatch_friend_ostream os d
  = inr (put (put (put (put os "stamp: ") (stamp d)) (newline ++ "value: ")) (data d)).
Proof. reflexivity. Qed.

(** Both [operator<<] overloads for [CaptureRange] write "lower_stamp: ", the
    lower stamp, ", upper_stamp: " and the upper stamp, in that order. *)
Lemma CaptureRange_ostream_text (os : ostream) (r : CaptureRange StampT) :
  CaptureRange_friend_ostream os r
  = inr (put (put (put (put os "lower_stamp: ") (lower_stamp r)) ", upper_stamp: ")
           (upper_stamp r))
  /\ CaptureRange_template_ostream os r = CaptureRange_friend_ostream os r.
Proof. split; reflexivity. Qed.

(** The [operator<<] template for [Dispatch] in dispatch_ostream.h names
    [dispatch.stamp], a member function, and [dispatch.value], which is no
    member: it is rejected for every dispatch. *)
Lemma Dispatch_template_ostream_never_instantiates
    (os : ostream) (d : Dispatch StampT ValueT) :
  Dispatch_template_ostream os d = inl (member_function_not_called "stamp")
  /\ (forall os', put_member Dispatch_members false os' d "value"
                  = inl (no_member_named "value")).
Proof. split; reflexivity. Qed.
End Streaming.

(** [CaptureRange<int32>(3, 9)] renders its bounds as 3 and 9. *)
Example CaptureRange_3_9_text :
  (range <- CaptureRange_ctor (integer_StampTraits LP64 Int) (two_args 3 9) ;;
   CaptureRange_friend_ostream "" range)
  = inr "lower_stamp: 3, upper_stamp: 9".
Proof. reflexivity. Qed.

(** C9 on [Dispatch<int, std::string>(5, "x")]: the friend [operator<<] of
    dispatch.h writes the two lines; the [operator<<] template of
    dispatch_ostream.h is rejected when instantiated, on [dispatch.stamp] and
    again on [dispatch.value]. *)
Theorem Dispatch_template_ostream_rejected :
  Dispatch_friend_ostream "" (Dispatch_ctor (ValueT := string) 5 "x")
  = inr ("stamp: 5" ++ newline ++ "value: x")
  /\ Dispatch_template_ostream "" (Dispatch_ctor (ValueT := string) 5 "x")
     = inl (member_function_not_called "stamp")
  /\ put_member Dispatch_members false "" (Dispatch_ctor (ValueT := string) 5 "x") "value"
     = inl (no_member_named "value").
Proof. repeat split. Qed.

(** ** DispatchTraits *)

(** [DispatchTraits<Dispatch<StampT, ValueT>>] forwards the two template
    arguments and takes its [offset_type] from [StampTraits<StampT>]; it
    resolves exactly when [StampTraits<StampT>] does. *)
Lemma DispatchTraits_forwards (dm : data_model) (StampT ValueT : cxx_type) :
  DispatchTraits dm StampT ValueT =
  match StampTraits dm StampT with
  | inr t => inr {| dispatch_stamp_type := StampT;
                    dispatch_value_type := ValueT;
                    dispatch_offset_type := offset_type t |}
  | inl e => inl e
  end.
Proof. unfold DispatchTraits. destruct (StampTraits dm StampT); reflexivity. Qed.

(** * Further properties *)

(** ** Which stamp types have traits, and what their bounds are *)

Section StampTraitsCoverage.
Variable dm : data_model.

Lemma make_signed_integral_signed (i s : integral) :
  make_signed_integral dm i = Some s -> In s signed_integer_types.
Proof.
  destruct i; unfold make_signed_integral; intros found;
    first [ discriminate
          | injection found as <-; simpl; tauto
          | apply find_some in found; destruct found as [s_in _]; exact s_in ].
Qed.

(** [lowest() < max()] for every arithmetic type, [bool] and the
    floating-point types included. *)
Lemma numeric_limits_lowest_lt_max (a : arithmetic) :
  scalar_ltb (numeric_limits_lowest dm (Fundamental (Arithmetic a)))
             (numeric_limits_max dm (Fundamental (Arithmetic a))) = true.
Proof.
  destruct a as [i | f]; simpl.
  - rewrite scalar_ltb_SInt. apply Z.ltb_lt, integral_min_lt_max.
  - unfold floating_lowest, floating_max, scalar_ltb; simpl.
    rewrite Z.min_id, Z.sub_diag, !Z.mul_1_r. apply Z.ltb_lt.
    assert (1 < 2 ^ Z.pos (digits (format dm f))) by (apply Z.pow_gt_1; lia).
    lia.
Qed.

(** Whatever [StampTraits] resolve to, their [min()] is below their [max()]. *)
Lemma StampTraits_bounds_ordered (S : cxx_type) (t : StampTraits_members scalar) :
  StampTraits dm S = inr t -> scalar_ltb (min t) (max t) = true.
Proof.
  destruct S as [f | d | clock d | name]; try discriminate.
  - rewrite StampTraits_primary_fundamental.
    destruct f as [| | [i | fl]]; try discriminate.
    destruct (make_signed dm _); [discriminate |].
    intros [= <-]. simpl. rewrite scalar_ltb_SInt.
    apply Z.ltb_lt, integral_min_lt_max.
  - intros [= <-]. simpl. apply numeric_limits_lowest_lt_max.
Qed.

End StampTraitsCoverage.

(** Under a data model in which every integral type has a signed integer type
    of its width, [StampTraits<S>] resolves for the time points and for the
    integer types other than [bool], and for no other type: not for [bool],
    the floating-point types, [void], [std::nullptr_t], durations or
    classes. *)
Theorem StampTraits_resolvable_types (dm : data_model) (S : cxx_type) :
  data_model_ok dm = true ->
  resolvable (StampTraits dm S) =
  match S with
  | chrono_time_point _ _ => true
  | Fundamental (Arithmetic (Integral Bool)) => false
  | Fundamental (Arithmetic (Integral _)) => true
  | _ => false
  end.
Proof.
  intros ok.
  destruct S as [[| | [i | fl]] | d | clock d | name]; try reflexivity.
  destruct (Bool.bool_dec (match i with Bool => true | _ => false end) true) as [is_bool | not_bool].
  - destruct i; try discriminate. reflexivity.
  - assert (i <> Bool) as i_not_bool by (intros ->; apply not_bool; reflexivity).
    destruct (make_signed_integral_total dm i ok i_not_bool) as [s [E _]].
    rewrite StampTraits_primary_fundamental. unfold make_signed. rewrite E.
    destruct i; try reflexivity. congruence.
Qed.

Lemma StampTraits_resolvable_types_witness :
  resolvable (StampTraits LP64 (Fundamental (Arithmetic (Integral Char16)))) = true.
Proof.
  apply (StampTraits_resolvable_types LP64 (Fundamental (Arithmetic (Integral Char16)))).
  reflexivity.
Defined.

(** Whenever [StampTraits<S>] resolves, [min() < max()], for integer stamps
    and for time points over any representation; so the range a [CaptureRange]
    is given by default is never empty or inverted. *)
Theorem default_range_is_ordered
    (dm : data_model) (S : cxx_type) (t : StampTraits_members scalar) :
  StampTraits dm S = inr t ->
  scalar_ltb (min t) (max t) = true
  /\ exists range,
       CaptureRange_ctor (StampTraits dm S) no_args = inr range
       /\ scalar_ltb (lower_stamp range) (upper_stamp range) = true.
Proof.
  intros S_resolves.
  pose proof (StampTraits_bounds_ordered dm S t S_resolves) as ordered.
  split; [exact ordered |].
  rewrite (CaptureRange_ctor_defaults dm S t S_resolves no_args).
  eexists. split; [reflexivity | exact ordered].
Qed.

Lemma default_range_is_ordered_witness :
  let seconds := {| rep := Floating Double; period := {| num := 1; den := 1 |} |} in
  let t := {| stamp_type := chrono_time_point "std::chrono::system_clock" seconds;
              offset_type := chrono_duration seconds;
              min := floating_lowest LP64 Double;
              max := floating_max LP64 Double |} in
  scalar_ltb (min t) (max t) = true
  /\ exists range,
       CaptureRange_ctor
         (StampTraits LP64 (chrono_time_point "std::chrono::system_clock" seconds))
         no_args = inr range
       /\ scalar_ltb (lower_stamp range) (upper_stamp range) = true.
Proof.
  intros seconds t.
  apply (default_range_is_ordered LP64
           (chrono_time_point "std::chrono::system_clock" seconds) t).
  reflexivity.
Defined.

(** The offset type of an integer stamp type is a stamp type again, and its
    own offset type.  The offset type of a time point is a duration, which is
    not a stamp type: [StampTraits] of it fails the [static_assert]. *)
Theorem StampTraits_of_offset_type
    (dm : data_model) (S : cxx_type) (t : StampTraits_members scalar) :
  StampTraits dm S = inr t ->
  match S with
  | chrono_time_point _ _ =>
      StampTraits dm (offset_type t)
      = inl (static_assert_failed "'StampT' must be fundemental type")
  | _ =>
      exists t', StampTraits dm (offset_type t) = inr t'
                 /\ offset_type t' = offset_type t
  end.
Proof.
  destruct S as [f | d | clock d | name]; try discriminate.
  - rewrite StampTraits_primary_fundamental.
    destruct f as [| | [i | fl]]; try discriminate.
    unfold make_signed.
    destruct (make_signed_integral dm i) as [s |] eqn:E; [| discriminate].
    intros [= <-]. cbn [offset_type].
    apply make_signed_integral_signed, (signed_integer_types_fixed dm) in E.
    rewrite StampTraits_primary_fundamental. unfold make_signed. rewrite E.
    eexists. split; reflexivity.
  - intros [= <-]. reflexivity.
Qed.

Lemma StampTraits_of_offset_type_witness :
  exists t', StampTraits LP64 int_type = inr t' /\ offset_type t' = int_type.
Proof.
  apply (StampTraits_of_offset_type LP64
           (Fundamental (Arithmetic (Integral UnsignedInt)))
           {| stamp_type := Fundamental (Arithmetic (Integral UnsignedInt));
              offset_type := int_type;
              min := SInt 0;
              max := SInt 4294967295 |}).
  reflexivity.
Defined.

(** [DispatchTraits<Dispatch<StampT, ValueT>>] resolves exactly when
    [StampTraits<StampT>] does, whatever the value type is; it then names the
    two template arguments and the stamp's offset type, which for a time point
    is its duration. *)
Theorem DispatchTraits_follow_StampTraits
    (dm : data_model) (StampT ValueT : cxx_type) :
  resolvable (DispatchTraits dm StampT ValueT) = resolvable (StampTraits dm StampT)
  /\ (forall d, DispatchTraits dm StampT ValueT = inr d ->
        dispatch_stamp_type d = StampT
        /\ dispatch_value_type d = ValueT
        /\ exists t, StampTraits dm StampT = inr t
                     /\ dispatch_offset_type d = offset_type t)
  /\ (forall ClockT DurationT,
        StampT = chrono_time_point ClockT DurationT ->
        DispatchTraits dm StampT ValueT
        = inr {| dispatch_stamp_type := StampT;
                 dispatch_value_type := ValueT;
                 dispatch_offset_type := chrono_duration DurationT |}).
Proof.
  split; [| split].
  - unfold DispatchTraits. destruct (StampTraits dm StampT); reflexivity.
  - unfold DispatchTraits. intros d.
    destruct (StampTraits dm StampT) as [e | t]; [discriminate |].
    intros [= <-]. simpl. eauto.
  - intros ClockT DurationT ->. reflexivity.
Qed.

(** The constructor of [CaptureRange] is accepted when both stamps are given
    or [StampTraits<StampT>] resolves, and only then: a call that leaves an
    argument out needs the traits. *)
Theorem CaptureRange_ctor_accepted (StampT : Type)
    (traits : compiled (StampTraits_members StampT)) (args : CaptureRange_args StampT) :
  resolvable (CaptureRange_ctor traits args) =
  match args with
  | two_args _ _ => true
  | _ => resolvable traits
  end.
Proof. destruct args, traits; reflexivity. Qed.

(** [CaptureRange] can be constructed from no, one or two arguments and from
    no more; the value constructor of [Dispatch] takes a stamp and any number
    of value arguments, and never none. *)
Theorem constructor_arities (n : nat) :
  callable_with (CaptureRange_constructor) n = (n <=? 2)%nat
  /\ callable_with Dispatch_value_constructor n = (1 <=? n)%nat
  /\ callable_with Dispatch_default_constructor n = (n =? 0)%nat.
Proof.
  unfold callable_with, required; simpl.
  destruct n as [| [| [| n]]]; repeat split; reflexivity.
Qed.

(** ** The order on dispatches *)

Section DispatchOrder.
Context {StampT ValueT : Type} `{Less StampT}.

(** [operator<] on dispatches is a strict weak ordering whenever [operator<]
    on stamps is one: it is irreflexive and transitive, and being unordered
    is transitive.  That is what sorting and ordered containers ask of a
    comparison. *)
Theorem Dispatch_lt_strict_weak_ordering
    (irreflexive : forall a : StampT, less a a = false)
    (transitive : forall a b c : StampT,
        less a b = true -> less b c = true -> less a c = true)
    (unordered_transitive : forall a b c : StampT,
        less a b = false -> less b a = false ->
        less b c = false -> less c b = false ->
        less a c = false /\ less c a = false) :
  (forall d : Dispatch StampT ValueT, Dispatch_lt d d = false)
  /\ (forall d1 d2 d3 : Dispatch StampT ValueT,
        Dispatch_lt d1 d2 = true -> Dispatch_lt d2 d3 = true ->
        Dispatch_lt d1 d3 = true)
  /\ (forall d1 d2 : Dispatch StampT ValueT,
        Dispatch_lt d1 d2 = true -> Dispatch_lt d2 d1 = false)
  /\ (forall d1 d2 d3 : Dispatch StampT ValueT,
        Dispatch_lt d1 d2 = false -> Dispatch_lt d2 d1 = false ->
        Dispatch_lt d2 d3 = false -> Dispatch_lt d3 d2 = false ->
        Dispatch_lt d1 d3 = false /\ Dispatch_lt d3 d1 = false).
Proof.
  split; [| split; [| split]].
  - intros d. rewrite Dispatch_lt_stamps. apply irreflexive.
  - intros d1 d2 d3. rewrite !Dispatch_lt_stamps. apply transitive.
  - intros d1 d2. rewrite !Dispatch_lt_stamps. intros forward.
    destruct (less (stamp d2) (stamp d1)) eqn:backward; [| reflexivity].
    rewrite <- (irreflexive (stamp d1)). symmetry.
    exact (transitive _ _ _ forward backward).
  - intros d1 d2 d3. rewrite !Dispatch_lt_stamps. apply unordered_transitive.
Qed.

(** When the stamps are totally ordered, two dispatches are unordered exactly
    when their stamps are equal; their values play no part. *)
Theorem Dispatch_unordered_iff_equal_stamps
    (irreflexive : forall a : StampT, less a a = false)
    (total : forall a b : StampT, less a b = false -> less b a = false -> a = b)
    (d1 d2 : Dispatch StampT ValueT) :
  Dispatch_lt d1 d2 = false /\ Dispatch_lt d2 d1 = false <-> stamp d1 = stamp d2.
Proof.
  rewrite !Dispatch_lt_stamps. split.
  - intros [forward backward]. apply total; assumption.
  - intros ->. split; apply irreflexive.
Qed.

End DispatchOrder.

Lemma Z_ltb_unordered_transitive (a b c : Z) :
  (a <? b) = false -> (b <? a) = false ->
  (b <? c) = false -> (c <? b) = false ->
  (a <? c) = false /\ (c <? a) = false.
Proof. rewrite !Z.ltb_ge. lia. Qed.

Lemma Z_ltb_transitive (a b c : Z) :
  (a <? b) = true -> (b <? c) = true -> (a <? c) = true.
Proof. rewrite !Z.ltb_lt. lia. Qed.

Lemma Z_ltb_total (a b : Z) : (a <? b) = false -> (b <? a) = false -> a = b.
Proof. rewrite !Z.ltb_ge. lia. Qed.

Lemma Dispatch_lt_strict_weak_ordering_witness :
  (forall d : Dispatch Z string, Dispatch_lt d d = false)
  /\ (forall d1 d2 d3 : Dispatch Z string,
        Dispatch_lt d1 d2 = true -> Dispatch_lt d2 d3 = true ->
        Dispatch_lt d1 d3 = true)
  /\ (forall d1 d2 : Dispatch Z string,
        Dispatch_lt d1 d2 = true -> Dispatch_lt d2 d1 = false)
  /\ (forall d1 d2 d3 : Dispatch Z string,
        Dispatch_lt d1 d2 = false -> Dispatch_lt d2 d1 = false ->
        Dispatch_lt d2 d3 = false -> Dispatch_lt d3 d2 = false ->
        Dispatch_lt d1 d3 = false /\ Dispatch_lt d3 d1 = false).
Proof.
  exact (Dispatch_lt_strict_weak_ordering (StampT := Z) (ValueT := string)
           Z.ltb_irrefl Z_ltb_transitive Z_ltb_unordered_transitive).
Defined.

Lemma Dispatch_unordered_iff_equal_stamps_witness :
  Dispatch_lt (Dispatch_ctor (ValueT := string) 5 "x") (Dispatch_ctor 5 "y") = false
  /\ Dispatch_lt (Dispatch_ctor (ValueT := string) 5 "y") (Dispatch_ctor 5 "x") = false
  <-> stamp (Dispatch_ctor (ValueT := string) 5 "x")
      = stamp (Dispatch_ctor (ValueT := string) 5 "y").
Proof.
  exact (Dispatch_unordered_iff_equal_stamps (StampT := Z) (ValueT := string)
           Z.ltb_irrefl Z_ltb_total (Dispatch_ctor 5 "x") (Dispatch_ctor 5 "y")).
Defined.

(** ** What the stream receives *)

Lemma append_assoc (a b c : string) : (a ++ b) ++ c = a ++ b ++ c.
Proof. induction a as [| x a IH]; simpl; [| rewrite IH]; reflexivity. Qed.

Lemma append_cancel_l (p a b : string) : p ++ a = p ++ b -> a = b.
Proof.
  induction p as [| x p IH]; simpl; [tauto |].
  intros [= E]. exact (IH E).
Qed.

(** Two texts that agree up to and after the first occurrence of a separator
    agree part by part. *)
Lemma split_at_separator (c : ascii) (s1 s2 r1 r2 : string) :
  occurs c s1 = false -> occurs c s2 = false ->
  s1 ++ String c r1 = s2 ++ String c r2 -> s1 = s2 /\ r1 = r2.
Proof.
  revert s2. induction s1 as [| a s1 IH]; intros [| b s2]; simpl.
  - intros _ _ [= ->]. split; reflexivity.
  - intros _ absent [= <- _]. rewrite Ascii.eqb_refl in absent. discriminate.
  - intros absent _ [= -> _]. rewrite Ascii.eqb_refl in absent. discriminate.
  - intros absent1 absent2 [= -> E].
    apply orb_false_elim in absent1, absent2.
    destruct (IH s2 (proj2 absent1) (proj2 absent2) E) as [-> ->].
    split; reflexivity.
Qed.

Lemma put_Z_decimal (os : ostream) (z : Z) : put os z = os ++ decimal z.
Proof. reflexivity. Qed.

Lemma decimal_NilEmpty (z : Z) : decimal z = NilEmpty.string_of_int (Z.to_int z).
Proof.
  unfold decimal. destruct z as [| p | p]; simpl; try reflexivity;
    pose proof (Unsigned.to_uint_nonnil p) as nonnil;
    destruct (Pos.to_uint p); try reflexivity; contradiction.
Qed.

(** The decimal text of an integer determines it. *)
Lemma decimal_injective (a b : Z) : decimal a = decimal b -> a = b.
Proof.
  rewrite !decimal_NilEmpty. intros same_text.
  apply DecimalZ.to_int_inj.
  pose proof (NilEmpty.isi (Z.to_int a)) as parsed.
  rewrite same_text, NilEmpty.isi in parsed. congruence.
Qed.

(** A character that is neither a digit nor the sign is not part of the
    decimal text of any integer. *)
Lemma decimal_without (c : ascii) (z : Z) :
  existsb (Ascii.eqb c) ["0"; "1"; "2"; "3"; "4"; "5"; "6"; "7"; "8"; "9"; "-"]%char
  = false ->
  occurs c (decimal z) = false.
Proof.
  intros other. simpl in other.
  repeat (apply orb_false_elim in other; destruct other as [? other]).
  assert (digits_only : forall d, occurs c (NilEmpty.string_of_uint d) = false).
  { induction d; simpl; rewrite ?IHd, ?orb_false_r; assumption || reflexivity. }
  rewrite decimal_NilEmpty.
  destruct (Z.to_int z); simpl; rewrite digits_only, ?orb_false_r;
    assumption || reflexivity.
Qed.

Lemma appends_Z : appends Z.
Proof. intros os z. reflexivity. Qed.

Lemma appends_string : appends string.
Proof. intros os s. reflexivity. Qed.

Section StreamedText.
Context {StampT ValueT : Type} `{Streamable StampT} `{Streamable ValueT}.

(** When streaming a stamp and streaming a value only add to the stream,
    the friend [operator<<] of [Dispatch] leaves what the stream held and
    adds "stamp: ", the stamp's text, a newline, "value: " and the value's
    text; what it adds does not depend on what the stream held. *)
Theorem Dispatch_ostream_appends
    (stamps_append : appends StampT) (values_append : appends ValueT)
    (os : ostream) (d : Dispatch StampT ValueT) :
  Dispatch_friend_ostream os d
  = inr (os ++ "stamp: " ++ put "" (stamp d) ++ newline ++ "value: " ++ put "" (data d)).
Proof.
  rewrite Dispatch_friend_ostream_text. f_equal.
  rewrite (values_append _ (data d)), (stamps_append _ (stamp d)).
  unfold put at 1 2, put_string. rewrite !append_assoc. reflexivity.
Qed.

(** The same for both [operator<<] overloads of [CaptureRange]: they add
    "lower_stamp: ", the lower stamp's text, ", upper_stamp: " and the upper
    stamp's text to the end of the stream. *)
Theorem CaptureRange_ostream_appends
    (stamps_append : appends StampT) (os : ostream) (r : CaptureRange StampT) :
  CaptureRange_friend_ostream os r
  = inr (os ++ "lower_stamp: " ++ put "" (lower_stamp r)
            ++ ", upper_stamp: " ++ put "" (upper_stamp r))
  /\ CaptureRange_template_ostream os r
     = inr (os ++ "lower_stamp: " ++ put "" (lower_stamp r)
               ++ ", upper_stamp: " ++ put "" (upper_stamp r)).
Proof.
  assert (E : CaptureRange_friend_ostream os r
              = inr (os ++ "lower_stamp: " ++ put "" (lower_stamp r)
                        ++ ", upper_stamp: " ++ put "" (upper_stamp r))).
  { change (CaptureRange_friend_ostream os r)
      with (@inr compile_error ostream
              (put (put (put (put os "lower_stamp: ") (lower_stamp r)) ", upper_stamp: ")
                 (upper_stamp r))).
    f_equal.
    rewrite (stamps_append _ (upper_stamp r)), (stamps_append _ (lower_stamp r)).
    unfold put at 1 2, put_string. rewrite !append_assoc. reflexivity. }
  split; [exact E | exact E].
Qed.

(** With both headers included, [os << dispatch] and [os << range] have a
    best candidate, the friend of dispatch.h; the template of
    dispatch_ostream.h for [Dispatch], which no instantiation accepts, is
    never the one chosen, so streaming a dispatch is accepted. *)
Theorem shift_left_takes_the_friend
    (os : ostream) (d : Dispatch StampT ValueT) (r : CaptureRange StampT) :
  shift_left Dispatch_overloads os d = Some (Dispatch_friend_ostream os d)
  /\ shift_left CaptureRange_overloads os r = Some (CaptureRange_friend_ostream os r)
  /\ resolvable (Dispatch_friend_ostream os d) = true
  /\ resolvable (CaptureRange_friend_ostream os r) = true
  /\ resolvable (Dispatch_template_ostream os d) = false.
Proof. repeat split. Qed.

End StreamedText.

Lemma Dispatch_ostream_appends_witness :
  Dispatch_friend_ostream "log: " (Dispatch_ctor (ValueT := string) (-5) "x")
  = inr ("log: " ++ "stamp: " ++ "-5" ++ newline ++ "value: " ++ "x").
Proof.
  exact (Dispatch_ostream_appends appends_Z appends_string "log: "
           (Dispatch_ctor (ValueT := string) (-5) "x")).
Defined.

Lemma CaptureRange_ostream_appends_witness :
  CaptureRange_friend_ostream "log: " {| lower_stamp := 3; upper_stamp := 9 |}
  = inr ("log: " ++ "lower_stamp: " ++ "3" ++ ", upper_stamp: " ++ "9")
  /\ CaptureRange_template_ostream "log: " {| lower_stamp := 3; upper_stamp := 9 |}
     = inr ("log: " ++ "lower_stamp: " ++ "3" ++ ", upper_stamp: " ++ "9").
Proof.
  exact (CaptureRange_ostream_appends appends_Z "log: "
           {| lower_stamp := 3; upper_stamp := 9 |}).
Defined.

(** ** Reading the text back *)

(** For integer stamps the text of a [CaptureRange] determines the range: two
    ranges streamed to the same stream give the same text only when they are
    the same range. *)
Theorem CaptureRange_text_determines_range (os : ostream) (r1 r2 : CaptureRange Z) :
  CaptureRange_friend_ostream os r1 = CaptureRange_friend_ostream os r2 <-> r1 = r2.
Proof.
  split; [| intros ->; reflexivity].
  destruct (CaptureRange_ostream_text os r1) as [-> _].
  destruct (CaptureRange_ostream_text os r2) as [-> _].
  intros [= same_text]. revert same_text.
  rewrite !put_Z_decimal. unfold put, put_string. rewrite !append_assoc.
  intros same_text.
  apply append_cancel_l, append_cancel_l in same_text.
  apply split_at_separator in same_text;
    try (apply decimal_without; reflexivity).
  destruct same_text as [lower upper].
  apply decimal_injective in lower.
  apply (append_cancel_l " upper_stamp: "), decimal_injective in upper.
  destruct r1, r2; simpl in *; congruence.
Qed.

Section DispatchText.
Context {ValueT : Type} `{Streamable ValueT}.

(** For integer stamps, and values whose own text determines them, the text
    of a [Dispatch] determines the dispatch. *)
Theorem Dispatch_text_determines_dispatch
    (values_append : appends ValueT)
    (value_text_injective : forall v1 v2 : ValueT, put "" v1 = put "" v2 -> v1 = v2)
    (os : ostream) (d1 d2 : Dispatch Z ValueT) :
  Dispatch_friend_ostream os d1 = Dispatch_friend_ostream os d2 <-> d1 = d2.
Proof.
  split; [| intros ->; reflexivity].
  rewrite !Dispatch_friend_ostream_text.
  intros [= same_text]. revert same_text.
  rewrite (values_append _ (data d1)), (values_append _ (data d2)).
  rewrite !put_Z_decimal. unfold put at 1 2 3 4, put_string. rewrite !append_assoc.
  intros same_text.
  apply append_cancel_l, append_cancel_l in same_text.
  change (newline ++ "value: " ++ ?v) with (String "010"%char ("value: " ++ v))
    in same_text.
  apply split_at_separator in same_text;
    try (apply decimal_without; reflexivity).
  destruct same_text as [stamps values].
  apply decimal_injective in stamps.
  apply (append_cancel_l "value: "), value_text_injective in values.
  destruct d1, d2; unfold stamp, data in *; simpl in *; congruence.
Qed.
End DispatchText.

Lemma string_text_injective (v1 v2 : string) : put "" v1 = put "" v2 -> v1 = v2.
Proof. exact (fun same => same). Qed.

Lemma Dispatch_text_determines_dispatch_witness :
  Dispatch_friend_ostream "" (Dispatch_ctor (ValueT := string) 5 "x")
  = Dispatch_friend_ostream "" (Dispatch_ctor (ValueT := string) 5 "y")
  <-> Dispatch_ctor (ValueT := string) 5 "x" = Dispatch_ctor 5 "y".
Proof.
  exact (Dispatch_text_determines_dispatch appends_string string_text_injective ""
           (Dispatch_ctor 5 "x") (Dispatch_ctor 5 "y")).
Defined.

(** ** Why a stamp type is refused *)

(** When [StampTraits<S>] is rejected, a type that is not fundamental fails
    the [static_assert] with its message, and a fundamental type passes it
    and fails in [std::make_signed]. *)
Theorem StampTraits_rejection_reason
    (dm : data_model) (S : cxx_type) (e : compile_error) :
  StampTraits dm S = inl e ->
  e = if is_fundamental S
      then make_signed_ill_formed
      else static_assert_failed "'StampT' must be fundemental type".
Proof.
  destruct S as [f | d | clock d | name]; try (intros [= <-]; reflexivity).
  rewrite StampTraits_primary_fundamental. unfold make_signed.
  destruct f as [| | [i | fl]]; try (intros [= <-]; reflexivity).
  destruct (make_signed_integral dm i); [discriminate | intros [= <-]; reflexivity].
Qed.

Lemma StampTraits_rejection_reason_witness :
  static_assert_failed "'StampT' must be fundemental type"
  = if is_fundamental (class_type "std::string")
    then make_signed_ill_formed
    else static_assert_failed "'StampT' must be fundemental type".
Proof.
  apply (StampTraits_rejection_reason LP64 (class_type "std::string")).
  reflexivity.
Defined.
